(** * LabOrchestratorLib-Auth: token issuing and verification

    A shallow embedding of [lab_orchestrator_lib_auth/auth.py]
    ([generate_auth_token], [decode_auth_token], [verify_auth_token]) over
    a model of the HS256 path of the [jwt] package the module calls.

    Python values are dynamically typed: the payload of a token and the
    fields of the dataclass hold [pyobj] values, and a subscript or an
    [in] test on a value of the wrong shape raises, as it does in Python.
    Exceptions are results ([Raise]); the wall clock is the one piece of
    process state the code reads, so computations run in a small
    state-and-exception monad over a [World].

    Clock readings are whole Unix seconds: the fraction of [time.time()]
    is not modelled. *)

From Stdlib Require Import ZArith List String Ascii Bool Lia.
From Stdlib Require Import DecimalString DecimalPos.
Import ListNotations.

Local Open Scope string_scope.
Local Open Scope Z_scope.

(** ** Python values *)

#[local] Unset Elimination Schemes.
Inductive pyobj : Type :=
| PyNone
| PyBool (b : bool)
| PyInt (z : Z)
| PyStr (s : string)
| PyList (l : list pyobj)
| PyDict (d : list (string * pyobj)).
#[local] Set Elimination Schemes.

(** [d[k]] on the items of a dict, [None] when the key is absent. *)
Fixpoint dict_get (k : string) (d : list (string * pyobj)) : option pyobj :=
  match d with
  | [] => None
  | (k', v) :: d' => if String.eqb k k' then Some v else dict_get k d'
  end.

Fixpoint distinct_keys (ks : list string) : bool :=
  match ks with
  | [] => true
  | k :: ks' => negb (existsb (String.eqb k) ks') && distinct_keys ks'
  end.

(** Values that are the image of a JSON document: the keys of every dict
    are pairwise distinct.  A dict literal or the result of [json.loads]
    always is. *)
Fixpoint json_ok (o : pyobj) : bool :=
  match o with
  | PyList l => forallb json_ok l
  | PyDict d =>
      distinct_keys (map fst d) &&
      forallb (fun kv => match kv with (_, v) => json_ok v end) d
  | _ => true
  end.

(** ** Exceptions and outcomes *)

Inductive exn : Type :=
| ExpiredSignatureError      (* jwt.exceptions *)
| InvalidSignatureError
| DecodeError
| InvalidAlgorithmError
| KeyError (key : string)    (* builtins *)
| TypeError.

Inductive outcome (A : Type) : Type :=
| Ok (a : A)
| Raise (e : exn).
Arguments Ok {A} a.
Arguments Raise {A} e.



(** ** The world and the monad *)

Section Monad.

(** Whatever the process holds besides the clock. *)
Context {Ambient : Type}.

Record World : Type := mkWorld { wall_clock : Z; ambient : Ambient }.

Definition M (A : Type) : Type := World -> outcome A * World.

Definition ret {A} (a : A) : M A := fun w => (Ok a, w).

Definition bind {A B} (c : M A) (k : A -> M B) : M B :=
  fun w =>
    match c w with
    | (Ok a, w') => k a w'
    | (Raise e, w') => (Raise e, w')
    end.

Definition raise {A} (e : exn) : M A := fun w => (Raise e, w).

Definition lift {A} (o : outcome A) : M A := fun w => (o, w).

(** [time.time()] *)
Definition time_time : M Z := fun w => (Ok (wall_clock w), w).

End Monad.

Arguments World : clear implicits.
Arguments M : clear implicits.

Notation "x <- c ;; k" := (bind c (fun x => k))
  (at level 61, c at next level, right associativity).

(** ** Python operators used by the module *)

(** [o[k]] for a string key [k]: only a dict can be subscripted by a
    string. *)
Definition py_getitem (o : pyobj) (k : string) : outcome pyobj :=
  match o with
  | PyDict d =>
      match dict_get k d with
      | Some v => Ok v
      | None => Raise (KeyError k)
      end
  | _ => Raise TypeError
  end.

Fixpoint is_substring (x s : string) : bool :=
  String.prefix x s ||
  match s with
  | EmptyString => false
  | String _ s' => is_substring x s'
  end.

(** [x == o] for a string [x]. *)
Definition py_eq_str (x : string) (o : pyobj) : bool :=
  match o with
  | PyStr s => String.eqb x s
  | _ => false
  end.

(** [x in o] for a string [x]: element of a list, substring of a string,
    key of a dict; anything else is not iterable. *)
Definition py_contains (x : string) (o : pyobj) : outcome bool :=
  match o with
  | PyList l => Ok (existsb (py_eq_str x) l)
  | PyStr s => Ok (is_substring x s)
  | PyDict d => Ok (existsb (String.eqb x) (map fst d))
  | _ => Raise TypeError
  end.

(** [not o] for an [Optional[int]] argument: [None] and [0] are falsy. *)
Definition py_not_optint (o : option Z) : bool :=
  match o with
  | None => true
  | Some z => Z.eqb z 0
  end.

(** ** The [jwt] package, HS256 path

    The module signs with [jwt.encode(payload, key, algorithm='HS256')] and
    checks with [jwt.decode(token, key, algorithms=['HS256'])].  The
    package is modelled down to the compact serialisation and the HMAC
    construction; the byte-level codecs and the hash are an interface.
    Keys are HMAC secrets the package accepts (it refuses PEM and SSH key
    material); payloads are JSON values without floats. *)

Class Backend : Type := {
  (** [hashlib.sha256(b).digest()] *)
  sha256 : string -> string;
  (** [base64url_encode] (no padding) and [base64url_decode] *)
  b64url_encode : string -> string;
  b64url_decode : string -> option string;
  (** [json.dumps(o, separators=(",", ":")).encode()] and [json.loads] *)
  json_dumps : pyobj -> string;
  json_loads : string -> option pyobj;
  (** [int(s)] on a string, [None] for [ValueError] *)
  int_of_str : string -> option Z;
  (** whether a token whose [exp] equals the clock reading is already
      expired ([exp <= now]) or not yet ([exp < now]); releases of the
      package differ *)
  expired_on_equal : bool
}.

Fixpoint has_dot (s : string) : bool :=
  match s with
  | EmptyString => false
  | String c s' => Ascii.eqb c "."%char || has_dot s'
  end.

(** What the proofs ask of the codecs: decoding undoes encoding, and the
    base64url alphabet has no dot.  Nothing is asked of the hash. *)
Record BackendLaws (B : Backend) : Prop := {
  b64url_decode_encode :
    forall b, b64url_decode (b64url_encode b) = Some b;
  b64url_encode_no_dot :
    forall b, has_dot (b64url_encode b) = false;
  json_loads_dumps :
    forall o, json_ok o = true -> json_loads (json_dumps o) = Some o
}.

(** *** HMAC (RFC 2104) over the backend's hash, block size 64 *)

Definition xor_ascii (a b : ascii) : ascii :=
  match a, b with
  | Ascii a0 a1 a2 a3 a4 a5 a6 a7, Ascii b0 b1 b2 b3 b4 b5 b6 b7 =>
      Ascii (xorb a0 b0) (xorb a1 b1) (xorb a2 b2) (xorb a3 b3)
            (xorb a4 b4) (xorb a5 b5) (xorb a6 b6) (xorb a7 b7)
  end.

Fixpoint string_map (f : ascii -> ascii) (s : string) : string :=
  match s with
  | EmptyString => EmptyString
  | String c s' => String (f c) (string_map f s')
  end.

Fixpoint zeros (n : nat) : string :=
  match n with
  | O => EmptyString
  | S n' => String Ascii.zero (zeros n')
  end.

Definition hmac_block_size : nat := 64.

(** The key as the HMAC uses it: hashed when longer than a block, then
    padded with zero bytes to a full block. *)
Definition hmac_key_block `{Backend} (key : string) : string :=
  let k := if Nat.ltb hmac_block_size (String.length key)
           then sha256 key else key in
  k ++ zeros (hmac_block_size - String.length k).

Definition hmac_sha256 `{Backend} (key msg : string) : string :=
  let kb := hmac_key_block key in
  sha256 (string_map (xor_ascii "\"%char) kb ++
          sha256 (string_map (xor_ascii "6"%char) kb ++ msg)).

(** *** Compact serialisation *)

(** [s.split(".", 1)] when it yields two parts. *)
Fixpoint split_first_dot (s : string) : option (string * string) :=
  match s with
  | EmptyString => None
  | String c s' =>
      if Ascii.eqb c "."%char then Some (EmptyString, s')
      else match split_first_dot s' with
           | Some (a, b) => Some (String c a, b)
           | None => None
           end
  end.

(** [s.rsplit(".", 1)] when it yields two parts. *)
Fixpoint rsplit_last_dot (s : string) : option (string * string) :=
  match s with
  | EmptyString => None
  | String c s' =>
      match rsplit_last_dot s' with
      | Some (a, b) => Some (String c a, b)
      | None => if Ascii.eqb c "."%char then Some (EmptyString, s') else None
      end
  end.

Definition jwt_header : pyobj :=
  PyDict [("typ", PyStr "JWT"); ("alg", PyStr "HS256")].

Definition jws_signing_input `{Backend} (payload : pyobj) : string :=
  b64url_encode (json_dumps jwt_header) ++ "." ++
  b64url_encode (json_dumps payload).

(** [jwt.encode(payload, key, algorithm='HS256')] *)
Definition jwt_encode `{Backend} (payload : pyobj) (key : string)
  : outcome string :=
  match payload with
  | PyDict _ =>
      let signing_input := jws_signing_input payload in
      Ok (signing_input ++ "." ++
          b64url_encode (hmac_sha256 key signing_input))
  | _ => Raise TypeError
  end.

Record jws_parts : Type := mkParts {
  jws_header : list (string * pyobj);
  jws_payload : string;
  jws_signing : string;
  jws_signature : string
}.

(** The framing checks of the package's [_load]: two dots at least, three
    base64url segments, the first one a JSON object. *)
Definition jws_load `{Backend} (token : string) : option jws_parts :=
  match rsplit_last_dot token with
  | None => None
  | Some (signing_input, crypto_segment) =>
      match split_first_dot signing_input with
      | None => None
      | Some (header_segment, payload_segment) =>
          match b64url_decode header_segment with
          | None => None
          | Some header_data =>
              match json_loads header_data with
              | Some (PyDict header) =>
                  match b64url_decode payload_segment with
                  | None => None
                  | Some payload =>
                      match b64url_decode crypto_segment with
                      | None => None
                      | Some signature =>
                          Some (mkParts header payload signing_input signature)
                      end
                  end
              | _ => None
              end
          end
      end
  end.

(** The header names an allowed algorithm: [alg in ['HS256']]. *)
Definition alg_allowed (header : list (string * pyobj)) : bool :=
  match dict_get "alg" header with
  | Some (PyStr a) => String.eqb a "HS256"
  | _ => false
  end.

(** [int(payload["exp"])]; a [ValueError] becomes [DecodeError], a
    [TypeError] is not caught. *)
Definition claim_int `{Backend} (o : pyobj) : outcome Z :=
  match o with
  | PyInt z => Ok z
  | PyBool b => Ok (if b then 1 else 0)
  | PyStr s =>
      match int_of_str s with
      | Some z => Ok z
      | None => Raise DecodeError
      end
  | _ => Raise TypeError
  end.

Definition is_expired `{Backend} (exp now : Z) : bool :=
  if expired_on_equal then Z.leb exp now else Z.ltb exp now.

(** [jwt.decode(token, key, algorithms=['HS256'])]: framing, algorithm,
    signature, payload, then the [exp] claim when there is one. *)
Definition jwt_decode `{Backend} {Ambient : Type} (token key : string)
  : M Ambient pyobj :=
  match jws_load token with
  | None => raise DecodeError
  | Some p =>
      if negb (alg_allowed (jws_header p)) then raise InvalidAlgorithmError
      else if negb (String.eqb (jws_signature p)
                               (hmac_sha256 key (jws_signing p)))
      then raise InvalidSignatureError
      else
        match json_loads (jws_payload p) with
        | Some (PyDict payload) =>
            match dict_get "exp" payload with
            | None => ret (PyDict payload)
            | Some e =>
                exp <- lift (claim_int e) ;;
                now <- time_time ;;
                if is_expired exp now then raise ExpiredSignatureError
                else ret (PyDict payload)
            end
        | _ => raise DecodeError
        end
  end.

(** ** The module *)

(** [LabInstanceTokenParams]: a dataclass, so nothing checks the field
    types when one is built. *)
Record LabInstanceTokenParams : Type := mkParams {
  lab_id : pyobj;
  lab_instance_id : pyobj;
  namespace_name : pyobj;
  allowed_vmi_names : pyobj
}.

Definition default_expires_in : Z := 600.

Definition auth_payload (user_id : pyobj) (p : LabInstanceTokenParams)
  (expires_at : Z) : pyobj :=
  PyDict [("id", user_id);
          ("exp", PyInt expires_at);
          ("lab_instance",
           PyDict [("lab_id", lab_id p);
                   ("lab_instance_id", lab_instance_id p);
                   ("namespace_name", namespace_name p);
                   ("allowed_vmi_names", allowed_vmi_names p)])].

Definition generate_auth_token `{Backend} {Ambient : Type}
  (user_id : pyobj) (lab_instance_token_params : LabInstanceTokenParams)
  (secret_key : string) (expires_in : Z) (expires_at : option Z)
  : M Ambient string :=
  expires_at <-
    (if py_not_optint expires_at
     then now <- time_time ;; ret (now + expires_in)
     else ret (match expires_at with Some t => t | None => 0 end)) ;;
  lift (jwt_encode (auth_payload user_id lab_instance_token_params expires_at)
                   secret_key).

(** [data['lab_instance'][k]] *)
Definition lab_instance_item (data : pyobj) (k : string) : outcome pyobj :=
  match py_getitem data "lab_instance" with
  | Ok li => py_getitem li k
  | Raise e => Raise e
  end.

Definition decode_auth_token `{Backend} {Ambient : Type}
  (token secret_key : string) : M Ambient LabInstanceTokenParams :=
  data <- jwt_decode token secret_key ;;
  a <- lift (lab_instance_item data "lab_id") ;;
  b <- lift (lab_instance_item data "lab_instance_id") ;;
  c <- lift (lab_instance_item data "namespace_name") ;;
  d <- lift (lab_instance_item data "allowed_vmi_names") ;;
  ret (mkParams a b c d).

Definition verify_auth_token `{Backend} {Ambient : Type}
  (token vmi_name secret_key : string)
  : M Ambient (bool * LabInstanceTokenParams) :=
  data <- decode_auth_token token secret_key ;;
  found <- lift (py_contains vmi_name (allowed_vmi_names data)) ;;
  let is_forbidden := negb found in
  ret (negb is_forbidden, data).

(** ** Notions the statements use *)

(** The expiry instant lines 41-42 leave in [expires_at]. *)
Definition expiry_instant (now expires_in : Z) (expires_at : option Z) : Z :=
  if py_not_optint expires_at then now + expires_in
  else match expires_at with Some t => t | None => 0 end.





(** The payload of a token read without any check, as
    [jwt.decode(token, options={"verify_signature": False})] reads it. *)
Definition unverified_payload `{Backend} (token : string) : option pyobj :=
  match jws_load token with
  | Some p => json_loads (jws_payload p)
  | None => None
  end.

(** The fields [decode_auth_token] reads under ['lab_instance']. *)
Definition lab_instance_fields : list string :=
  ["lab_id"; "lab_instance_id"; "namespace_name"; "allowed_vmi_names"].


(** An induction principle that reaches the elements of lists and the
    values of dicts. *)
Section PyobjInd.
Variable P : pyobj -> Prop.
Hypothesis HNone : P PyNone.
Hypothesis HBool : forall b, P (PyBool b).
Hypothesis HInt : forall z, P (PyInt z).
Hypothesis HStr : forall s, P (PyStr s).
Hypothesis HList : forall l, Forall P l -> P (PyList l).
Hypothesis HDict : forall d, Forall (fun kv => P (snd kv)) d -> P (PyDict d).

Fixpoint pyobj_nested_ind (o : pyobj) : P o :=
  match o with
  | PyNone => HNone
  | PyBool b => HBool b
  | PyInt z => HInt z
  | PyStr s => HStr s
  | PyList l =>
      HList l ((fix go (l : list pyobj) : Forall P l :=
                  match l with
                  | [] => Forall_nil P
                  | x :: l' => Forall_cons x (pyobj_nested_ind x) (go l')
                  end) l)
  | PyDict d =>
      HDict d ((fix go (d : list (string * pyobj))
                  : Forall (fun kv => P (snd kv)) d :=
                  match d with
                  | [] => Forall_nil _
                  | kv :: d' =>
                      Forall_cons kv (pyobj_nested_ind (snd kv)) (go d')
                  end) d)
  end.
End PyobjInd.

(** ** A backend that computes

    SHA-256 (FIPS 180-4), base64url without padding (RFC 4648, section 5)
    and compact JSON, on byte strings.  A [string] is read as the bytes of
    a key or a message and as the code points, below 256, of a Python
    [str]. *)

Definition ord (c : ascii) : Z := Z.of_N (N_of_ascii c).
Definition chr (z : Z) : ascii := ascii_of_N (Z.to_N z).

Fixpoint codes (s : string) : list Z :=
  match s with
  | EmptyString => []
  | String c s' => ord c :: codes s'
  end.

Fixpoint chars (l : list Z) : string :=
  match l with
  | [] => EmptyString
  | b :: l' => String (chr b) (chars l')
  end.

Module SHA256.
Local Open Scope list_scope.

Definition w32 (x : Z) : Z := Z.land x 0xFFFFFFFF.
Definition add32 (x y : Z) : Z := w32 (x + y).
Definition rotr (n x : Z) : Z :=
  Z.lor (Z.shiftr x n) (w32 (Z.shiftl x (32 - n))).
Definition shr (n x : Z) : Z := Z.shiftr x n.
Definition not32 (x : Z) : Z := Z.lxor x 0xFFFFFFFF.

Definition Ch (x y z : Z) : Z := Z.lxor (Z.land x y) (Z.land (not32 x) z).
Definition Maj (x y z : Z) : Z :=
  Z.lxor (Z.lxor (Z.land x y) (Z.land x z)) (Z.land y z).
Definition Sigma0 (x : Z) : Z :=
  Z.lxor (Z.lxor (rotr 2 x) (rotr 13 x)) (rotr 22 x).
Definition Sigma1 (x : Z) : Z :=
  Z.lxor (Z.lxor (rotr 6 x) (rotr 11 x)) (rotr 25 x).
Definition sigma0 (x : Z) : Z :=
  Z.lxor (Z.lxor (rotr 7 x) (rotr 18 x)) (shr 3 x).
Definition sigma1 (x : Z) : Z :=
  Z.lxor (Z.lxor (rotr 17 x) (rotr 19 x)) (shr 10 x).

(** The constants are roots of primes (FIPS 180-4, 4.2.2 and 5.3.3): the
    first 32 bits of the fractional part of the cube root of each of the
    first sixty-four primes, and of the square root of each of the first
    eight. *)
Definition primes64 : list Z :=
  [2; 3; 5; 7; 11; 13; 17; 19; 23; 29; 31; 37; 41; 43; 47; 53;
   59; 61; 67; 71; 73; 79; 83; 89; 97; 101; 103; 107; 109; 113; 127; 131;
   137; 139; 149; 151; 157; 163; 167; 173; 179; 181; 191; 193; 197; 199;
   211; 223; 227; 229; 233; 239; 241; 251; 257; 263; 269; 271; 277; 281;
   283; 293; 307; 311].

(** the largest [r] below [2 ^ bits] with [r ^ 3 <= n], bit by bit *)
Fixpoint cube_root (bits : nat) (n r : Z) : Z :=
  match bits with
  | O => r
  | S b =>
      let r' := r + 2 ^ Z.of_nat b in
      cube_root b n (if r' * r' * r' <=? n then r' else r)
  end.

Definition frac_cbrt32 (p : Z) : Z :=
  cube_root 40 (p * 2 ^ 96) 0 mod 2 ^ 32.

Definition frac_sqrt32 (p : Z) : Z := Z.sqrt (p * 2 ^ 64) mod 2 ^ 32.

Definition K : list Z := Eval vm_compute in map frac_cbrt32 primes64.

Definition H0 : list Z :=
  Eval vm_compute in map frac_sqrt32 (firstn 8 primes64).

(** the [n] low bytes of [x], most significant first *)
Fixpoint be_bytes (n : nat) (x : Z) : list Z :=
  match n with
  | O => []
  | S n' => Z.land (Z.shiftr x (8 * Z.of_nat n')) 0xFF :: be_bytes n' x
  end.

(** the message, a byte 0x80, zero bytes up to 56 modulo 64, and the
    length in bits on eight bytes *)
Definition pad (msg : list Z) : list Z :=
  let len := Z.of_nat (List.length msg) in
  msg ++ 0x80 :: repeat 0 (Z.to_nat ((55 - len) mod 64))
      ++ be_bytes 8 (8 * len).

Fixpoint words (fuel : nat) (l : list Z) : list Z :=
  match fuel, l with
  | S f, a :: b :: c :: d :: r =>
      (Z.shiftl a 24 + Z.shiftl b 16 + Z.shiftl c 8 + d) :: words f r
  | _, _ => []
  end.

(** the words 16 to 63 of the message schedule; [w] holds the last
    sixteen words, oldest first *)
Fixpoint schedule (n : nat) (w : list Z) : list Z :=
  match n with
  | O => []
  | S n' =>
      let x := add32 (add32 (sigma1 (nth 14 w 0)) (nth 9 w 0))
                     (add32 (sigma0 (nth 1 w 0)) (nth 0 w 0)) in
      x :: schedule n' (tl w ++ [x])
  end.

Definition round (st : list Z) (kw : Z * Z) : list Z :=
  match st with
  | [a; b; c; d; e; f; g; h] =>
      let t1 := add32 (add32 (add32 h (Sigma1 e))
                             (add32 (Ch e f g) (fst kw))) (snd kw) in
      let t2 := add32 (Sigma0 a) (Maj a b c) in
      [add32 t1 t2; a; b; c; add32 d t1; e; f; g]
  | _ => st
  end.

Definition compress (st block : list Z) : list Z :=
  let w := block ++ schedule 48 block in
  let st' := fold_left round (combine K w) st in
  map (fun p => add32 (fst p) (snd p)) (combine st st').

Fixpoint blocks (fuel : nat) (ws st : list Z) : list Z :=
  match fuel with
  | O => st
  | S f =>
      match ws with
      | [] => st
      | _ => blocks f (skipn 16 ws) (compress st (firstn 16 ws))
      end
  end.

Definition digest (msg : string) : string :=
  let p := pad (codes msg) in
  let ws := words (List.length p) p in
  chars (flat_map (be_bytes 4) (blocks (List.length ws) ws H0)).
End SHA256.

Module Base64Url.

(** the URL-safe alphabet: A-Z a-z 0-9 - _ *)
Definition sextet_char (i : Z) : ascii :=
  if i <? 26 then chr (65 + i)
  else if i <? 52 then chr (71 + i)
  else if i <? 62 then chr (i - 4)
  else if i =? 62 then "-"%char
  else "_"%char.

Definition char_sextet (c : ascii) : option Z :=
  let n := ord c in
  if (65 <=? n) && (n <=? 90) then Some (n - 65)
  else if (97 <=? n) && (n <=? 122) then Some (n - 71)
  else if (48 <=? n) && (n <=? 57) then Some (n + 4)
  else if n =? 45 then Some 62
  else if n =? 95 then Some 63
  else None.

(** three bytes give four sextets; one or two trailing bytes give two
    or three, without padding *)
Fixpoint sextets_of_bytes (l : list Z) : list Z :=
  match l with
  | a :: b :: c :: r =>
      a / 4 :: (a mod 4) * 16 + b / 16 :: (b mod 16) * 4 + c / 64 :: c mod 64
        :: sextets_of_bytes r
  | [a; b] => [a / 4; (a mod 4) * 16 + b / 16; (b mod 16) * 4]
  | [a] => [a / 4; (a mod 4) * 16]
  | [] => []
  end.

Fixpoint bytes_of_sextets (l : list Z) : option (list Z) :=
  match l with
  | w :: x :: y :: z :: r =>
      match bytes_of_sextets r with
      | Some t =>
          Some (w * 4 + x / 16 :: (x mod 16) * 16 + y / 4
                  :: (y mod 4) * 64 + z :: t)
      | None => None
      end
  | [w; x; y] => Some [w * 4 + x / 16; (x mod 16) * 16 + y / 4]
  | [w; x] => Some [w * 4 + x / 16]
  | [_] => None
  | [] => Some []
  end.

Fixpoint sextets_of_chars (s : string) : option (list Z) :=
  match s with
  | EmptyString => Some []
  | String c s' =>
      match char_sextet c, sextets_of_chars s' with
      | Some i, Some l => Some (i :: l)
      | _, _ => None
      end
  end.

Fixpoint chars_of_sextets (l : list Z) : string :=
  match l with
  | [] => EmptyString
  | i :: l' => String (sextet_char i) (chars_of_sextets l')
  end.

Definition encode (s : string) : string :=
  chars_of_sextets (sextets_of_bytes (codes s)).

Definition decode (s : string) : option string :=
  match sextets_of_chars s with
  | Some l =>
      match bytes_of_sextets l with
      | Some b => Some (chars b)
      | None => None
      end
  | None => None
  end.
(** value ranges *)
Definition sextet (i : Z) : Prop := 0 <= i < 64.
Definition byte (b : Z) : Prop := 0 <= b < 256.
End Base64Url.

(** the double quote, code 34 *)
Definition dquote : ascii := ascii_of_nat 34.

Module Json.

Definition is_digit (c : ascii) : bool := (48 <=? ord c) && (ord c <=? 57).

Fixpoint span_digits (s : string) : string * string :=
  match s with
  | EmptyString => (EmptyString, EmptyString)
  | String c s' =>
      if is_digit c
      then let (a, b) := span_digits s' in (String c a, b)
      else (EmptyString, s)
  end.

Definition dump_int (z : Z) : string :=
  match z with
  | Z0 => "0"
  | Zpos p => NilEmpty.string_of_uint (Pos.to_uint p)
  | Zneg p => String "-" (NilEmpty.string_of_uint (Pos.to_uint p))
  end.

Definition parse_digits (s : string) : option (Z * string) :=
  let (ds, r) := span_digits s in
  match ds with
  | EmptyString => None
  | _ => option_map (fun u => (Z.of_uint u, r)) (NilEmpty.uint_of_string ds)
  end.

Definition parse_int (s : string) : option (Z * string) :=
  match s with
  | String c s' =>
      if Ascii.eqb c "-"
      then option_map (fun zr => (- fst zr, snd zr)) (parse_digits s')
      else parse_digits s
  | EmptyString => None
  end.

Definition hex_digit (z : Z) : ascii :=
  if z <? 10 then chr (48 + z) else chr (87 + z).

Definition hex_value (c : ascii) : option Z :=
  let n := ord c in
  if (48 <=? n) && (n <=? 57) then Some (n - 48)
  else if (97 <=? n) && (n <=? 102) then Some (n - 87)
  else if (65 <=? n) && (n <=? 70) then Some (n - 55)
  else None.

(** One character of a string literal, as [json.dumps] writes it with
    [ensure_ascii]: printable ASCII but the quote and the backslash as
    it is, the rest escaped. *)
Definition escape_char (c : ascii) : string :=
  let n := ord c in
  if n =? 34 then String "\" (String dquote EmptyString)
  else if n =? 92 then "\\"
  else if n =? 10 then "\n"
  else if n =? 13 then "\r"
  else if n =? 9 then "\t"
  else if n =? 8 then "\b"
  else if n =? 12 then "\f"
  else if (32 <=? n) && (n <=? 126) then String c EmptyString
  else String "\" (String "u" (String "0" (String "0"
         (String (hex_digit (n / 16)) (String (hex_digit (n mod 16)) EmptyString))))).

Fixpoint escape (s : string) : string :=
  match s with
  | EmptyString => EmptyString
  | String c s' => escape_char c ++ escape s'
  end.

Definition quote (s : string) : string :=
  String dquote (escape s ++ String dquote EmptyString).

Definition unescape (e : ascii) : option ascii :=
  let n := ord e in
  if n =? 34 then Some e
  else if n =? 92 then Some e
  else if n =? 47 then Some e
  else if n =? 110 then Some (chr 10)
  else if n =? 114 then Some (chr 13)
  else if n =? 116 then Some (chr 9)
  else if n =? 98 then Some (chr 8)
  else if n =? 102 then Some (chr 12)
  else None.

(** ord points above 255 do not fit a byte string *)
Definition hex4 (a b c d : ascii) : option ascii :=
  match hex_value a, hex_value b, hex_value c, hex_value d with
  | Some 0, Some 0, Some x, Some y => Some (chr (16 * x + y))
  | _, _, _, _ => None
  end.

Definition cons_char (c : ascii) (r : option (string * string))
  : option (string * string) :=
  match r with
  | Some (s, rest) => Some (String c s, rest)
  | None => None
  end.

(** the characters after an opening quote, up to the closing one *)
Fixpoint parse_string (s : string) : option (string * string) :=
  match s with
  | EmptyString => None
  | String c r =>
      if ord c =? 34 then Some (EmptyString, r)
      else if ord c =? 92 then
        match r with
        | EmptyString => None
        | String e r' =>
            if ord e =? 117 then
              match r' with
              | String h1 (String h2 (String h3 (String h4 r''))) =>
                  match hex4 h1 h2 h3 h4 with
                  | Some x => cons_char x (parse_string r'')
                  | None => None
                  end
              | _ => None
              end
            else
              match unescape e with
              | Some x => cons_char x (parse_string r')
              | None => None
              end
        end
      else if ord c <? 32 then None
      else cons_char c (parse_string r)
  end.

Fixpoint join_comma (l : list string) : string :=
  match l with
  | [] => EmptyString
  | [x] => x
  | x :: l' => x ++ "," ++ join_comma l'
  end.

Fixpoint dumps (o : pyobj) : string :=
  match o with
  | PyNone => "null"
  | PyBool true => "true"
  | PyBool false => "false"
  | PyInt z => dump_int z
  | PyStr s => quote s
  | PyList l => "[" ++ join_comma (map dumps l) ++ "]"
  | PyDict d =>
      "{" ++ join_comma
               (map (fun kv => match kv with
                               | (k, v) => quote k ++ ":" ++ dumps v
                               end) d) ++ "}"
  end.

Fixpoint strip_prefix (p s : string) : option string :=
  match p with
  | EmptyString => Some s
  | String a p' =>
      match s with
      | String b s' => if Ascii.eqb a b then strip_prefix p' s' else None
      | EmptyString => None
      end
  end.

Fixpoint dict_remove (k : string) (d : list (string * pyobj)) :=
  match d with
  | [] => []
  | (k', v) :: d' =>
      if String.eqb k k' then dict_remove k d' else (k', v) :: dict_remove k d'
  end.

(** a member read before the members [d]: a later member of the same
    name keeps its value, as [dict] does *)
Definition dict_first (k : string) (v : pyobj) (d : list (string * pyobj)) :=
  match dict_get k d with
  | Some v' => (k, v') :: dict_remove k d
  | None => (k, v) :: d
  end.

Fixpoint parse (fuel : nat) (s : string) : option (pyobj * string) :=
  match fuel with
  | O => None
  | S f =>
      match s with
      | EmptyString => None
      | String c r =>
          if ord c =? 110 then option_map (pair PyNone) (strip_prefix "ull" r)
          else if ord c =? 116 then option_map (pair (PyBool true)) (strip_prefix "rue" r)
          else if ord c =? 102 then option_map (pair (PyBool false)) (strip_prefix "alse" r)
          else if ord c =? 34 then
            match parse_string r with
            | Some (x, r') => Some (PyStr x, r')
            | None => None
            end
          else if ord c =? 91 then
            match parse_items f r with
            | Some (l, r') => Some (PyList l, r')
            | None => option_map (pair (PyList [])) (strip_prefix "]" r)
            end
          else if ord c =? 123 then
            match parse_members f r with
            | Some (d, r') => Some (PyDict d, r')
            | None => option_map (pair (PyDict [])) (strip_prefix "}" r)
            end
          else
            match parse_int s with
            | Some (z, r') => Some (PyInt z, r')
            | None => None
            end
      end
  end
with parse_items (fuel : nat) (s : string) : option (list pyobj * string) :=
  match fuel with
  | O => None
  | S f =>
      match parse f s with
      | Some (x, String c r) =>
          if ord c =? 44 then
            match parse_items f r with
            | Some (l, r') => Some (x :: l, r')
            | None => None
            end
          else if ord c =? 93 then Some ([x], r)
          else None
      | _ => None
      end
  end
with parse_members (fuel : nat) (s : string)
  : option (list (string * pyobj) * string) :=
  match fuel with
  | O => None
  | S f =>
      match s with
      | String q s1 =>
          if ord q =? 34 then
            match parse_string s1 with
            | Some (k, String c s2) =>
                if ord c =? 58 then
                  match parse f s2 with
                  | Some (v, String c' r) =>
                      if ord c' =? 44 then
                        match parse_members f r with
                        | Some (d, r') => Some (dict_first k v d, r')
                        | None => None
                        end
                      else if ord c' =? 125 then Some ([(k, v)], r)
                      else None
                  | _ => None
                  end
                else None
            | _ => None
            end
          else None
      | EmptyString => None
      end
  end.

(** what may follow a number: not a digit *)
Definition no_digit_head (rest : string) : Prop :=
  match rest with
  | EmptyString => True
  | String c _ => is_digit c = false
  end.

(** one member of an object, as [dumps] writes it *)
Definition dump_member (kv : string * pyobj) : string :=
  match kv with (k, v) => quote k ++ ":" ++ dumps v end.

(** reading back what [dumps] wrote, followed by anything that does not
    prolong a number, with enough fuel *)
Definition parses (o : pyobj) : Prop :=
  json_ok o = true ->
  forall rest fuel,
    no_digit_head rest ->
    (String.length (dumps o) < fuel)%nat ->
    parse fuel (dumps o ++ rest) = Some (o, rest).

Definition loads (s : string) : option pyobj :=
  match parse (S (String.length s)) s with
  | Some (o, EmptyString) => Some o
  | _ => None
  end.

End Json.

(** [int(s)] for a plain decimal literal. *)
Definition decimal_of_str (s : string) : option Z :=
  match Json.parse_int s with
  | Some (z, EmptyString) => Some z
  | _ => None
  end.

Definition pyjwt_hs256 : Backend := {|
  sha256 := SHA256.digest;
  b64url_encode := Base64Url.encode;
  b64url_decode := Base64Url.decode;
  json_dumps := Json.dumps;
  json_loads := Json.loads;
  int_of_str := decimal_of_str;
  expired_on_equal := true
|}.

(** ** The example scenario of the design *)

Definition example_claims : LabInstanceTokenParams :=
  mkParams (PyInt 42) (PyInt 7) (PyStr "ns-a")
           (PyList [PyStr "vm-1"; PyStr "vm-2"]).

Definition example_world (now : Z) : World unit := mkWorld now tt.


(** ** Notions the further properties use *)

(** The four lookups of [decode_auth_token], on what [jwt.decode]
    returned. *)
Definition read_claims (data : pyobj) : outcome LabInstanceTokenParams :=
  match lab_instance_item data "lab_id" with
  | Raise e => Raise e
  | Ok a =>
      match lab_instance_item data "lab_instance_id" with
      | Raise e => Raise e
      | Ok b =>
          match lab_instance_item data "namespace_name" with
          | Raise e => Raise e
          | Ok c =>
              match lab_instance_item data "allowed_vmi_names" with
              | Raise e => Raise e
              | Ok d => Ok (mkParams a b c d)
              end
          end
      end
  end.

(** Claims of any shape that JSON can carry, whatever the annotations
    say. *)
Definition json_claims (user_id : pyobj) (p : LabInstanceTokenParams)
  : bool :=
  json_ok user_id && json_ok (lab_id p) && json_ok (lab_instance_id p) &&
  json_ok (namespace_name p) && json_ok (allowed_vmi_names p).

(** The registered claims besides [exp] that the package looks at when
    they are present.  The model of [jwt.decode] stops at [exp], so a
    statement about an arbitrary payload asks for their absence. *)
Definition other_registered_claims : list string :=
  ["nbf"; "iat"; "aud"; "iss"; "sub"; "jti"].

Definition only_exp_registered (d : list (string * pyobj)) : bool :=
  forallb (fun k => negb (existsb (String.eqb k) (map fst d)))
          other_registered_claims.

Fixpoint count_dots (s : string) : nat :=
  match s with
  | EmptyString => O
  | String c s' =>
      if Ascii.eqb c "."%char then S (count_dots s') else count_dots s'
  end.



(** * Facts *)

(** ** Strings *)

Lemma string_app_assoc (a b c : string) : (a ++ b) ++ c = a ++ (b ++ c).
Proof. induction a; simpl; congruence. Qed.

Lemma string_app_length (a b : string) :
  String.length (a ++ b) = (String.length a + String.length b)%nat.
Proof. induction a; simpl; congruence. Qed.

Lemma string_app_empty (s : string) : s ++ EmptyString = s.
Proof. induction s; simpl; congruence. Qed.

(** ** The computing backend satisfies the laws *)

Lemma chr_ord c : chr (ord c) = c.
Proof. unfold chr, ord. rewrite N2Z.id. apply ascii_N_embedding. Qed.

Lemma ord_range c : 0 <= ord c < 256.
Proof.
  unfold ord. pose proof (N_ascii_bounded c). lia.
Qed.

Lemma chars_codes s : chars (codes s) = s.
Proof. induction s; simpl; rewrite ?chr_ord; congruence. Qed.

Lemma codes_range s : Forall (fun b => 0 <= b < 256) (codes s).
Proof. induction s; simpl; constructor; auto using ord_range. Qed.

Lemma list_ind3 {A} (P : list A -> Prop) :
  P [] -> (forall a, P [a]) -> (forall a b, P [a; b]) ->
  (forall a b c r, P r -> P (a :: b :: c :: r)) ->
  forall l, P l.
Proof.
  intros H0 H1 H2 H3. fix IH 1.
  intros [|a [|b [|c r]]];
    [apply H0 | apply H1 | apply H2 | apply H3, IH].
Qed.

Module Base64UrlFacts.
Import Base64Url.

Lemma sextet_cases (P : Z -> Prop) :
  (forall n, (n < 64)%nat -> P (Z.of_nat n)) -> forall i, sextet i -> P i.
Proof.
  intros H i Hi. rewrite <- (Z2Nat.id i) by (unfold sextet in Hi; lia).
  apply H. unfold sextet in Hi. lia.
Qed.

Lemma char_sextet_char i : sextet i -> char_sextet (sextet_char i) = Some i.
Proof.
  revert i. apply sextet_cases. intros n Hn.
  do 64 (destruct n as [|n]; [reflexivity|]). lia.
Qed.

Lemma sextet_char_not_dot i :
  sextet i -> Ascii.eqb (sextet_char i) "." = false.
Proof.
  revert i. apply sextet_cases. intros n Hn.
  do 64 (destruct n as [|n]; [reflexivity|]). lia.
Qed.

Lemma sextets_of_bytes_range l :
  Forall byte l -> Forall sextet (sextets_of_bytes l).
Proof.
  unfold byte, sextet. induction l using list_ind3; intros H; simpl.
  - constructor.
  - inversion_clear H. repeat constructor;
      Z.div_mod_to_equations; lia.
  - inversion_clear H as [|? ? Ha H']. inversion_clear H'.
    repeat constructor; Z.div_mod_to_equations; lia.
  - inversion_clear H as [|? ? Ha H']. inversion_clear H' as [|? ? Hb H''].
    inversion_clear H'' as [|? ? Hc Hr].
    repeat (constructor; [Z.div_mod_to_equations; lia|]). auto.
Qed.

Lemma bytes_of_sextets_of_bytes l :
  Forall byte l -> bytes_of_sextets (sextets_of_bytes l) = Some l.
Proof.
  unfold byte. induction l using list_ind3; intros H; simpl.
  - reflexivity.
  - inversion_clear H. do 2 f_equal. Z.div_mod_to_equations; lia.
  - inversion_clear H as [|? ? Ha H']. inversion_clear H'.
    do 2 f_equal; [|f_equal]; Z.div_mod_to_equations; lia.
  - inversion_clear H as [|? ? Ha H']. inversion_clear H' as [|? ? Hb H''].
    inversion_clear H'' as [|? ? Hc Hr].
    rewrite IHl by assumption.
    do 2 f_equal; [|f_equal; [|f_equal]]; Z.div_mod_to_equations; lia.
Qed.

Lemma sextets_of_chars_of_sextets l :
  Forall sextet l -> sextets_of_chars (chars_of_sextets l) = Some l.
Proof.
  induction 1; simpl; [reflexivity|].
  rewrite char_sextet_char, IHForall by assumption. reflexivity.
Qed.

Lemma chars_of_sextets_no_dot l :
  Forall sextet l -> has_dot (chars_of_sextets l) = false.
Proof.
  induction 1; simpl; [reflexivity|].
  rewrite sextet_char_not_dot by assumption. assumption.
Qed.

Lemma decode_encode s : decode (encode s) = Some s.
Proof.
  unfold decode, encode.
  rewrite sextets_of_chars_of_sextets
    by (apply sextets_of_bytes_range, codes_range).
  rewrite bytes_of_sextets_of_bytes by apply codes_range.
  rewrite chars_codes. reflexivity.
Qed.

Lemma encode_no_dot s : has_dot (encode s) = false.
Proof.
  apply chars_of_sextets_no_dot, sextets_of_bytes_range, codes_range.
Qed.
End Base64UrlFacts.

Module JsonFacts.
Import Json.

Lemma span_digits_stop rest :
  no_digit_head rest -> span_digits rest = (EmptyString, rest).
Proof.
  destruct rest as [|c r]; simpl; [reflexivity|].
  intros ->. reflexivity.
Qed.

Lemma span_digits_uint d rest :
  no_digit_head rest ->
  span_digits (NilEmpty.string_of_uint d ++ rest)
  = (NilEmpty.string_of_uint d, rest).
Proof.
  intros Hr. induction d; simpl;
    [apply span_digits_stop; assumption | rewrite IHd; reflexivity ..].
Qed.

Lemma string_of_uint_nonempty p :
  NilEmpty.string_of_uint (Pos.to_uint p) <> EmptyString.
Proof.
  intros E. apply (Unsigned.to_uint_nonnil p).
  destruct (Pos.to_uint p); simpl in E; congruence.
Qed.

Lemma parse_digits_uint p rest :
  no_digit_head rest ->
  parse_digits (NilEmpty.string_of_uint (Pos.to_uint p) ++ rest)
  = Some (Zpos p, rest).
Proof.
  intros Hr. unfold parse_digits. rewrite span_digits_uint by assumption.
  pose proof (string_of_uint_nonempty p) as Hne.
  destruct (NilEmpty.string_of_uint (Pos.to_uint p)) eqn:E; [congruence|].
  rewrite <- E, NilEmpty.usu. simpl. unfold Z.of_uint.
  rewrite Unsigned.of_to. reflexivity.
Qed.

Lemma uint_head_not_minus d c s :
  NilEmpty.string_of_uint d = String c s -> Ascii.eqb c "-" = false.
Proof. destruct d; simpl; intros [= <- _]; reflexivity. Qed.

Lemma parse_int_dump z rest :
  no_digit_head rest -> parse_int (dump_int z ++ rest) = Some (z, rest).
Proof.
  intros Hr. destruct z as [|p|p]; simpl dump_int.
  - simpl. unfold parse_digits. simpl. rewrite span_digits_stop by assumption.
    reflexivity.
  - pose proof (parse_digits_uint p rest Hr) as H.
    pose proof (string_of_uint_nonempty p) as Hne.
    destruct (NilEmpty.string_of_uint (Pos.to_uint p)) eqn:E; [congruence|].
    simpl. simpl in H. rewrite (uint_head_not_minus _ _ _ E). exact H.
  - simpl. rewrite parse_digits_uint by assumption. reflexivity.
Qed.

Lemma dump_int_head z :
  exists c s, dump_int z = String c s /\
              (ord c =? 110) = false /\ (ord c =? 116) = false /\
              (ord c =? 102) = false /\ (ord c =? 34) = false /\
              (ord c =? 91) = false /\ (ord c =? 123) = false.
Proof.
  assert (U : forall d, d <> Decimal.Nil -> exists c s,
               NilEmpty.string_of_uint d = String c s /\
               (ord c =? 110) = false /\ (ord c =? 116) = false /\
               (ord c =? 102) = false /\ (ord c =? 34) = false /\
               (ord c =? 91) = false /\ (ord c =? 123) = false).
  { intros d Hd. destruct d; [congruence | ..]; simpl;
      eexists; eexists; (split; [reflexivity|]); repeat split. }
  destruct z as [|p|p]; simpl.
  - exists "0"%char, EmptyString. repeat split.
  - apply U, Unsigned.to_uint_nonnil.
  - exists "-"%char. eexists. split; [reflexivity|]. repeat split.
Qed.

Lemma parse_string_escape_char c t :
  parse_string (escape_char c ++ t) = cons_char c (parse_string t).
Proof.
  destruct c as [[] [] [] [] [] [] [] []]; reflexivity.
Qed.

Lemma parse_string_escape s rest :
  parse_string (escape s ++ String dquote rest) = Some (s, rest).
Proof.
  induction s as [|c s IH]; simpl; [reflexivity|].
  rewrite string_app_assoc, parse_string_escape_char, IH. reflexivity.
Qed.

Lemma dict_get_absent k (d : list (string * pyobj)) :
  existsb (String.eqb k) (map fst d) = false -> dict_get k d = None.
Proof.
  induction d as [|[k' v] d IH]; simpl; [reflexivity|].
  intros H. apply orb_false_iff in H as [H1 H2]. rewrite H1. auto.
Qed.

Ltac side := solve [exact I | assumption | simpl; reflexivity | simpl in *; lia].

Ltac norm_len H :=
  repeat (progress (rewrite ?string_app_length in H;
                    cbn [String.length] in H)).

Lemma parse_items_dumps l :
  l <> [] -> Forall parses l -> forallb json_ok l = true ->
  forall rest fuel,
    (String.length (join_comma (map dumps l)) + 1 < fuel)%nat ->
    parse_items fuel (join_comma (map dumps l) ++ String "]" rest)
    = Some (l, rest).
Proof.
  induction l as [|x l IH]; [congruence|].
  intros _ HF Hok rest fuel Hlen.
  apply Forall_cons_iff in HF as [Hx HF].
  simpl in Hok. apply andb_true_iff in Hok as [Hokx Hok].
  destruct fuel as [|f]; [lia|].
  destruct l as [|y l].
  - simpl in *. rewrite (Hx Hokx) by side. reflexivity.
  - change (join_comma (map dumps (x :: y :: l)))
      with (dumps x ++ "," ++ join_comma (map dumps (y :: l))) in *.
    rewrite string_app_length in Hlen. simpl String.length in Hlen.
    rewrite string_app_assoc. simpl parse_items.
    rewrite (Hx Hokx) by side.
    simpl. rewrite IH;
      [reflexivity | congruence | assumption | assumption
      | simpl in Hlen |- *; lia].
Qed.

Lemma json_ok_dict_cons k v d :
  json_ok (PyDict ((k, v) :: d)) = true ->
  existsb (String.eqb k) (map fst d) = false /\
  json_ok v = true /\ json_ok (PyDict d) = true.
Proof.
  simpl. intros H.
  apply andb_true_iff in H as [Hk Hok].
  apply andb_true_iff in Hk as [Hk Hks].
  apply andb_true_iff in Hok as [Hokv Hok].
  apply negb_true_iff in Hk. rewrite Hks, Hok. auto.
Qed.

Lemma parse_members_dumps d :
  d <> [] -> Forall (fun kv => parses (snd kv)) d ->
  json_ok (PyDict d) = true ->
  forall rest fuel,
    (String.length (join_comma (map dump_member d)) + 1 < fuel)%nat ->
    parse_members fuel (join_comma (map dump_member d) ++ String "}" rest)
    = Some (d, rest).
Proof.
  induction d as [|[k v] d IH]; [congruence|].
  intros _ HF Hok rest fuel Hlen.
  apply Forall_cons_iff in HF as [Hv HF]. simpl in Hv.
  apply json_ok_dict_cons in Hok as (Hk & Hokv & Hok).
  destruct fuel as [|f]; [lia|].
  destruct d as [|m d].
  - cbn [map join_comma dump_member] in *. unfold quote in *.
    norm_len Hlen.
    cbn [append parse_members]. rewrite !string_app_assoc. cbn [append].
    change (ord dquote =? 34) with true. cbv iota.
    rewrite parse_string_escape.
    change (ord ":" =? 58) with true. cbv iota.
    rewrite (Hv Hokv) by side. reflexivity.
  - change (join_comma (map dump_member ((k, v) :: m :: d)))
      with (dump_member (k, v) ++ "," ++ join_comma (map dump_member (m :: d))) in *.
    unfold dump_member at 1 in Hlen. unfold dump_member at 1.
    unfold quote in *.
    norm_len Hlen.
    cbn [append parse_members]. rewrite !string_app_assoc. cbn [append].
    change (ord dquote =? 34) with true. cbv iota.
    rewrite parse_string_escape.
    change (ord ":" =? 58) with true. cbv iota.
    rewrite (Hv Hokv) by side.
    change (ord "," =? 44) with true. cbv iota.
    rewrite IH;
      [ unfold dict_first; rewrite dict_get_absent by assumption; reflexivity
      | congruence | assumption
      | assumption
      | lia ].
Qed.

Lemma parse_items_close f rest : parse_items f (String "]" rest) = None.
Proof. destruct f as [|[|f]]; reflexivity. Qed.

Lemma parse_members_close f rest : parse_members f (String "}" rest) = None.
Proof. destruct f; reflexivity. Qed.

Lemma dumps_list l :
  dumps (PyList l) = String "[" (join_comma (map dumps l) ++ "]").
Proof. reflexivity. Qed.

Lemma dumps_dict d :
  dumps (PyDict d) = String "{" (join_comma (map dump_member d) ++ "}").
Proof. reflexivity. Qed.

Lemma parse_open_list f r :
  parse (S f) (String "[" r)
  = match parse_items f r with
    | Some (l, r') => Some (PyList l, r')
    | None => option_map (pair (PyList [])) (strip_prefix "]" r)
    end.
Proof. reflexivity. Qed.

Lemma parse_open_dict f r :
  parse (S f) (String "{" r)
  = match parse_members f r with
    | Some (d, r') => Some (PyDict d, r')
    | None => option_map (pair (PyDict [])) (strip_prefix "}" r)
    end.
Proof. reflexivity. Qed.

Lemma parse_dumps o : parses o.
Proof.
  induction o using pyobj_nested_ind; intros Hok rest fuel Hr Hlen;
    (destruct fuel as [|f]; [simpl in Hlen; lia|]).
  - reflexivity.
  - destruct b; reflexivity.
  - simpl dumps. pose proof (parse_int_dump z rest Hr) as Hp.
    destruct (dump_int_head z) as (c & s & E & H1 & H2 & H3 & H4 & H5 & H6).
    rewrite E in *. simpl. rewrite H1, H2, H3, H4, H5, H6.
    simpl in Hp. rewrite Hp. reflexivity.
  - simpl. rewrite string_app_assoc. cbn [append].
    rewrite parse_string_escape. reflexivity.
  - rewrite dumps_list in *. cbn [append]. rewrite parse_open_list.
    rewrite string_app_assoc. cbn [append].
    destruct l as [|x l].
    + simpl. rewrite parse_items_close. reflexivity.
    + norm_len Hlen.
      rewrite parse_items_dumps;
        [reflexivity | congruence | assumption | exact Hok | lia].
  - rewrite dumps_dict in *. cbn [append]. rewrite parse_open_dict.
    rewrite string_app_assoc. cbn [append].
    destruct d as [|m d].
    + simpl. rewrite parse_members_close. reflexivity.
    + norm_len Hlen.
      rewrite parse_members_dumps;
        [reflexivity | congruence | assumption | exact Hok | lia].
Qed.

Lemma loads_dumps o : json_ok o = true -> loads (dumps o) = Some o.
Proof.
  intros Hok. unfold loads.
  pose proof (parse_dumps o Hok EmptyString (S (String.length (dumps o))) I) as H.
  rewrite string_app_empty in H. rewrite H by lia. reflexivity.
Qed.
End JsonFacts.

Lemma pyjwt_hs256_laws : BackendLaws pyjwt_hs256.
Proof.
  constructor; simpl.
  - exact Base64UrlFacts.decode_encode.
  - exact Base64UrlFacts.encode_no_dot.
  - exact JsonFacts.loads_dumps.
Qed.

(** ** Splitting at dots *)

Lemma rsplit_last_dot_none s : has_dot s = false -> rsplit_last_dot s = None.
Proof.
  induction s as [|c s IH]; simpl; [reflexivity|].
  intros H. apply orb_false_iff in H as [Hc Hs].
  rewrite (IH Hs), Hc. reflexivity.
Qed.

Lemma rsplit_last_dot_app a b :
  has_dot b = false -> rsplit_last_dot (a ++ String "." b) = Some (a, b).
Proof.
  intros Hb. induction a as [|c a IH]; simpl.
  - rewrite (rsplit_last_dot_none b Hb). reflexivity.
  - rewrite IH. reflexivity.
Qed.

Lemma split_first_dot_app a b :
  has_dot a = false -> split_first_dot (a ++ String "." b) = Some (a, b).
Proof.
  induction a as [|c a IH]; simpl; [reflexivity|].
  intros H. apply orb_false_iff in H as [Hc Ha].
  rewrite Hc, (IH Ha). reflexivity.
Qed.

(** ** The HMAC key block *)

(** A key shorter than a block and the same key followed by a zero byte
    give the same block, hence the same tag on every message. *)
Lemma hmac_key_block_zero_byte `{Backend} (key : string) :
  (String.length key < hmac_block_size)%nat ->
  hmac_key_block (key ++ String Ascii.zero EmptyString) = hmac_key_block key.
Proof.
  intros Hlen. unfold hmac_key_block, hmac_block_size in *. cbv zeta.
  rewrite string_app_length. simpl String.length.
  destruct (Nat.ltb_spec 64 (String.length key + 1)); [lia|].
  destruct (Nat.ltb_spec 64 (String.length key)); [lia|].
  rewrite string_app_length, string_app_assoc. simpl String.length.
  f_equal.
  replace (64 - String.length key)%nat
    with (S (64 - (String.length key + 1)))%nat by lia.
  reflexivity.
Qed.

Lemma hmac_sha256_zero_byte `{Backend} (key msg : string) :
  (String.length key < hmac_block_size)%nat ->
  hmac_sha256 (key ++ String Ascii.zero EmptyString) msg = hmac_sha256 key msg.
Proof.
  intros Hlen. unfold hmac_sha256.
  rewrite hmac_key_block_zero_byte by assumption. reflexivity.
Qed.

(** Decoding only uses the key through the tag, so the two keys decode
    every token alike. *)
Lemma jwt_decode_zero_byte `{Backend} {S} tok key (w : World S) :
  (String.length key < hmac_block_size)%nat ->
  jwt_decode tok (key ++ String Ascii.zero EmptyString) w
  = jwt_decode tok key w.
Proof.
  intros Hlen. unfold jwt_decode.
  destruct (jws_load tok) as [p|]; [|reflexivity].
  rewrite hmac_sha256_zero_byte by assumption. reflexivity.
Qed.

Lemma decode_auth_token_zero_byte `{Backend} {S} tok key (w : World S) :
  (String.length key < hmac_block_size)%nat ->
  decode_auth_token tok (key ++ String Ascii.zero EmptyString) w
  = decode_auth_token tok key w.
Proof.
  intros Hlen. unfold decode_auth_token, bind.
  rewrite jwt_decode_zero_byte by assumption. reflexivity.
Qed.

(** ** Running the monad *)


Lemma bind_raise {S A B} (c : M S A) (k : A -> M S B) w e w' :
  c w = (Raise e, w') -> bind c k w = (Raise e, w').
Proof. intros E. unfold bind. rewrite E. reflexivity. Qed.

(** ** Computations that only read the clock *)






(** ** The package on its own tokens *)

Lemma is_expired_past `{Backend} exp now :
  exp < now -> is_expired exp now = true.
Proof.
  intros H0. unfold is_expired.
  destruct expired_on_equal; [apply Z.leb_le | apply Z.ltb_lt]; lia.
Qed.

Lemma is_expired_future `{Backend} exp now :
  now < exp -> is_expired exp now = false.
Proof.
  intros H0. unfold is_expired.
  destruct expired_on_equal; [apply Z.leb_gt | apply Z.ltb_ge]; lia.
Qed.

Section Package.
Context {B : Backend} (laws : BackendLaws B).

(** the token [jwt.encode] builds from the items of a payload *)
Lemma jwt_encode_dict d key :
  jwt_encode (PyDict d) key
  = Ok (jws_signing_input (PyDict d) ++
        String "." (b64url_encode
                      (hmac_sha256 key (jws_signing_input (PyDict d))))).
Proof. reflexivity. Qed.

Lemma jws_load_encode payload sig :
  jws_load (jws_signing_input payload ++ String "." (b64url_encode sig))
  = Some (mkParts [("typ", PyStr "JWT"); ("alg", PyStr "HS256")]
                  (json_dumps payload) (jws_signing_input payload) sig).
Proof.
  unfold jws_load.
  rewrite rsplit_last_dot_app by apply (b64url_encode_no_dot B laws).
  unfold jws_signing_input. cbn [append].
  rewrite split_first_dot_app by apply (b64url_encode_no_dot B laws).
  rewrite !(b64url_decode_encode B laws).
  rewrite (json_loads_dumps B laws) by reflexivity.
  reflexivity.
Qed.


Lemma jwt_decode_same_tag {S} d key key' (w : World S) tok :
  jwt_encode (PyDict d) key = Ok tok ->
  hmac_sha256 key' (jws_signing_input (PyDict d))
    = hmac_sha256 key (jws_signing_input (PyDict d)) ->
  json_ok (PyDict d) = true ->
  jwt_decode tok key' w
  = match dict_get "exp" d with
    | None => (Ok (PyDict d), w)
    | Some e =>
        match claim_int e with
        | Ok exp =>
            if is_expired exp (wall_clock w)
            then (Raise ExpiredSignatureError, w)
            else (Ok (PyDict d), w)
        | Raise x => (Raise x, w)
        end
    end.
Proof.
  rewrite jwt_encode_dict. intros [= <-] Heq Hok.
  unfold jwt_decode. rewrite jws_load_encode.
  cbn -[hmac_sha256 jws_signing_input json_loads json_dumps].
  rewrite Heq, String.eqb_refl. cbn [negb].
  rewrite (json_loads_dumps B laws) by assumption.
  destruct (dict_get "exp" d) as [e|]; [|reflexivity].
  unfold bind, lift, time_time, raise, ret.
  destruct (claim_int e); [|reflexivity].
  destruct (is_expired a (wall_clock w)); reflexivity.
Qed.

End Package.

(** ** The module on its own tokens *)

Lemma generate_auth_token_run `{Backend} {S} user_id C K expires_in
  expires_at (w : World S) :
  generate_auth_token user_id C K expires_in expires_at w
  = (jwt_encode
       (auth_payload user_id C
          (expiry_instant (wall_clock w) expires_in expires_at)) K, w).
Proof.
  unfold generate_auth_token, expiry_instant, bind, lift, ret, time_time.
  destruct (py_not_optint expires_at); reflexivity.
Qed.




Lemma decode_auth_token_raise `{Backend} {S} tok K (w w' : World S) e :
  jwt_decode tok K w = (Raise e, w') ->
  decode_auth_token tok K w = (Raise e, w').
Proof. intros E. unfold decode_auth_token. apply bind_raise, E. Qed.

Lemma generate_auth_token_ok `{Backend} {S} user_id C K expires_in
  expires_at (w w1 : World S) tok :
  generate_auth_token user_id C K expires_in expires_at w = (Ok tok, w1) ->
  jwt_encode
    (auth_payload user_id C
       (expiry_instant (wall_clock w) expires_in expires_at)) K = Ok tok
  /\ w1 = w.
Proof.
  rewrite generate_auth_token_run. intros E.
  split; [exact (f_equal fst E) | symmetry; exact (f_equal snd E)].
Qed.



(** * Properties of the module *)






(** C3, the code at the failing input: called at clock 1000 with
    [expires_in = 600] and [expires_at = 0], [generate_auth_token] binds
    the expiry 1600, not the 0 that was supplied, and the token decodes
    at clock 1000 although instant 0 is long past. *)
Lemma generate_expires_at_zero_example :
  exists tok,
    @generate_auth_token pyjwt_hs256 unit (PyStr "u1") example_claims
      "secret" 600 (Some 0) (example_world 1000)
    = (Ok tok, example_world 1000) /\
    (exists items,
        @unverified_payload pyjwt_hs256 tok = Some (PyDict items) /\
        dict_get "exp" items = Some (PyInt 1600)) /\
    @decode_auth_token pyjwt_hs256 unit tok "secret" (example_world 1000)
    = (Ok example_claims, example_world 1000).
Proof.
  eexists. split; [vm_compute; reflexivity|].
  split; [eexists; split; [vm_compute; reflexivity | reflexivity]|].
  vm_compute. reflexivity.
Qed.

(** C10: an [expires_at] of 0 is falsy, so the call behaves as if no
    [expires_at] had been given: the payload that is signed carries
    [exp = time.time() + expires_in]. *)
Theorem generate_expires_at_zero_is_ignored (B : Backend) (S : Type)
  user_id C K expires_in (w : World S) :
  generate_auth_token user_id C K expires_in (Some 0) w
  = (jwt_encode (auth_payload user_id C (wall_clock w + expires_in)) K, w)
  /\
  generate_auth_token user_id C K expires_in (Some 0) w
  = generate_auth_token user_id C K expires_in None w.
Proof.
  rewrite !generate_auth_token_run. split; reflexivity.
Qed.






(** ** Faults of the field lookups *)






(** C7: when [decode_auth_token] raises, [verify_auth_token] raises the
    same exception, so the same error kind, from the same world, and
    returns no pair. *)
Theorem verify_propagates_decode_failure (B : Backend) (S : Type) tok
  vmi_name K (w w' : World S) e :
  decode_auth_token tok K w = (Raise e, w') ->
  verify_auth_token tok vmi_name K w = (Raise e, w') /\
  (forall r, verify_auth_token tok vmi_name K w <> (Ok r, w')).
Proof.
  intros Hd.
  assert (Hv : verify_auth_token tok vmi_name K w = (Raise e, w'))
    by (unfold verify_auth_token; apply bind_raise, Hd).
  split; [exact Hv|]. intros r. rewrite Hv. discriminate.
Qed.

Lemma verify_propagates_decode_failure_witness :
  @verify_auth_token pyjwt_hs256 unit "not-a-token" "vm-1" "secret"
    (example_world 1000)
  = (Raise DecodeError, example_world 1000) /\
  (forall r,
      @verify_auth_token pyjwt_hs256 unit "not-a-token" "vm-1" "secret"
        (example_world 1000)
      <> (Ok r, example_world 1000)).
Proof.
  apply (verify_propagates_decode_failure pyjwt_hs256 unit).
  vm_compute. reflexivity.
Defined.



(** ** The operations only read the clock *)









(** * Further properties of the module *)

(** ** Taking runs apart *)

Lemma bind_ok_inv {S A B} (c : M S A) (k : A -> M S B) w b w' :
  bind c k w = (Ok b, w') ->
  exists a w1, c w = (Ok a, w1) /\ k a w1 = (Ok b, w').
Proof.
  unfold bind. destruct (c w) as [[a|e] w1]; [|discriminate].
  intros E. exists a, w1. split; [reflexivity | exact E].
Qed.

Lemma decode_auth_token_read `{Backend} {S} tok K (w : World S) :
  decode_auth_token tok K w
  = match jwt_decode tok K w with
    | (Ok data, w1) => (read_claims data, w1)
    | (Raise e, w1) => (Raise e, w1)
    end.
Proof.
  unfold decode_auth_token, read_claims, bind, lift, ret.
  destruct (jwt_decode tok K w) as [[data|e] w1]; [|reflexivity].
  destruct (lab_instance_item data "lab_id"); [|reflexivity].
  destruct (lab_instance_item data "lab_instance_id"); [|reflexivity].
  destruct (lab_instance_item data "namespace_name"); [|reflexivity].
  destruct (lab_instance_item data "allowed_vmi_names"); reflexivity.
Qed.





(** ** Tokens signed with the key, whatever their payload *)

Lemma decode_signed_payload (B : Backend) (laws : BackendLaws B) (S : Type)
  d K tok (w : World S) :
  jwt_encode (PyDict d) K = Ok tok ->
  json_ok (PyDict d) = true ->
  decode_auth_token tok K w
  = match dict_get "exp" d with
    | None => (read_claims (PyDict d), w)
    | Some e =>
        match claim_int e with
        | Ok z =>
            if is_expired z (wall_clock w)
            then (Raise ExpiredSignatureError, w)
            else (read_claims (PyDict d), w)
        | Raise x => (Raise x, w)
        end
    end.
Proof.
  intros Htok Hok. rewrite decode_auth_token_read.
  rewrite (jwt_decode_same_tag laws d K K w tok Htok eq_refl Hok).
  destruct (dict_get "exp" d) as [e|]; [|reflexivity].
  destruct (claim_int e) as [z|x]; [|reflexivity].
  destruct (is_expired z (wall_clock w)); reflexivity.
Qed.

Lemma json_claims_json_ok user_id C exp :
  json_claims user_id C = true ->
  json_ok (auth_payload user_id C exp) = true.
Proof.
  unfold json_claims. intros H.
  repeat (apply andb_true_iff in H as [H ?]).
  destruct C as [a b c d]. cbn [lab_id lab_instance_id namespace_name
                                 allowed_vmi_names] in *.
  unfold auth_payload.
  cbn [json_ok map fst forallb distinct_keys existsb lab_id lab_instance_id
       namespace_name allowed_vmi_names].
  repeat match goal with
         | E : json_ok _ = true |- _ => rewrite E; clear E
         end.
  reflexivity.
Qed.

Lemma read_claims_auth_payload user_id C exp :
  read_claims (auth_payload user_id C exp) = Ok C.
Proof. destruct C. reflexivity. Qed.

(** What decoding a freshly issued token gives, for claims of any JSON
    shape. *)
Lemma decode_fresh_json_token (B : Backend) (laws : BackendLaws B)
  (S : Type) user_id C K expires_in expires_at (w w1 w2 : World S) tok :
  json_claims user_id C = true ->
  generate_auth_token user_id C K expires_in expires_at w = (Ok tok, w1) ->
  decode_auth_token tok K w2
  = if is_expired (expiry_instant (wall_clock w) expires_in expires_at)
                  (wall_clock w2)
    then (Raise ExpiredSignatureError, w2)
    else (Ok C, w2).
Proof.
  intros Hj Hg. apply generate_auth_token_ok in Hg as [Htok _].
  unfold auth_payload in Htok.
  rewrite (decode_signed_payload B laws S _ K tok w2 Htok
             (json_claims_json_ok _ _ _ Hj)).
  cbn [dict_get String.eqb Ascii.eqb Bool.eqb claim_int].
  destruct (is_expired _ _); [reflexivity|].
  f_equal. apply (read_claims_auth_payload user_id C).
Qed.

(** X1: the dataclass checks no types, and the round trip does not need
    them: for a user id and four field values of any JSON shape ([None],
    booleans, integers, strings, lists, dicts), a token decoded with its
    key before its expiry instant gives back the four field values. *)
Theorem decode_generate_any_json (B : Backend) (laws : BackendLaws B)
  (S : Type) user_id C K expires_in expires_at (w w1 w2 : World S) tok :
  json_claims user_id C = true ->
  generate_auth_token user_id C K expires_in expires_at w = (Ok tok, w1) ->
  wall_clock w2 < expiry_instant (wall_clock w) expires_in expires_at ->
  decode_auth_token tok K w2 = (Ok C, w2).
Proof.
  intros Hj Hg Hlt.
  rewrite (decode_fresh_json_token B laws S _ _ _ _ _ _ _ _ _ Hj Hg).
  rewrite is_expired_future by assumption. reflexivity.
Qed.

Lemma decode_generate_any_json_witness :
  exists tok,
    @generate_auth_token pyjwt_hs256 unit PyNone
      (mkParams PyNone (PyList [PyInt 1; PyBool true])
                (PyDict [("ns", PyStr "a")]) (PyInt (-3)))
      "secret" 600 None (example_world 1000)
    = (Ok tok, example_world 1000) /\
    @decode_auth_token pyjwt_hs256 unit tok "secret" (example_world 1599)
    = (Ok (mkParams PyNone (PyList [PyInt 1; PyBool true])
                    (PyDict [("ns", PyStr "a")]) (PyInt (-3))),
       example_world 1599).
Proof.
  eexists. split; [vm_compute; reflexivity|].
  apply (decode_generate_any_json pyjwt_hs256 pyjwt_hs256_laws unit PyNone
           _ "secret" 600 None (example_world 1000) (example_world 1000)
           (example_world 1599)).
  - reflexivity.
  - vm_compute. reflexivity.
  - vm_compute. reflexivity.
Defined.

(** ** Verifying freshly issued tokens *)






(** ** Allowed names that are not a list *)







(** ** Expiry *)

(** X5: [expires_in] is not checked.  Issued with a negative [expires_in]
    and no [expires_at] (or the falsy 0), the token is returned all the
    same and is expired from the start: decoding it at the issuing
    instant, or at any later one, raises [ExpiredSignatureError]. *)
Theorem negative_expires_in_is_expired_on_issue (B : Backend)
  (laws : BackendLaws B) (S : Type) user_id C K expires_in expires_at
  (w w1 w2 : World S) tok :
  json_claims user_id C = true ->
  expires_in < 0 ->
  py_not_optint expires_at = true ->
  generate_auth_token user_id C K expires_in expires_at w = (Ok tok, w1) ->
  wall_clock w <= wall_clock w2 ->
  decode_auth_token tok K w2 = (Raise ExpiredSignatureError, w2).
Proof.
  intros Hj Hneg Hnot Hg Hle.
  rewrite (decode_fresh_json_token B laws S _ _ _ _ _ _ _ _ _ Hj Hg).
  unfold expiry_instant. rewrite Hnot.
  rewrite is_expired_past by lia. reflexivity.
Qed.

Lemma negative_expires_in_is_expired_on_issue_witness :
  exists tok,
    @generate_auth_token pyjwt_hs256 unit (PyStr "u1") example_claims
      "secret" (-1) None (example_world 1000)
    = (Ok tok, example_world 1000) /\
    @decode_auth_token pyjwt_hs256 unit tok "secret" (example_world 1000)
    = (Raise ExpiredSignatureError, example_world 1000).
Proof.
  eexists. split; [vm_compute; reflexivity|].
  apply (negative_expires_in_is_expired_on_issue pyjwt_hs256
           pyjwt_hs256_laws unit (PyStr "u1") example_claims "secret" (-1)
           None (example_world 1000) (example_world 1000)
           (example_world 1000)).
  - reflexivity.
  - lia.
  - reflexivity.
  - vm_compute. reflexivity.
  - vm_compute. discriminate.
Defined.

(** X6: a supplied [expires_at] other than 0 overrides both [expires_in]
    and the clock: the token is the same for every [expires_in] and every
    issuing instant, and it decodes at every clock reading before
    [expires_at]. *)
Theorem nonzero_expires_at_overrides (B : Backend) (laws : BackendLaws B)
  (S : Type) user_id C K expires_in expires_in' t (w w' w2 : World S) :
  json_claims user_id C = true ->
  t <> 0 ->
  generate_auth_token user_id C K expires_in (Some t) w
  = (jwt_encode (auth_payload user_id C t) K, w) /\
  fst (generate_auth_token user_id C K expires_in (Some t) w)
  = fst (generate_auth_token user_id C K expires_in' (Some t) w') /\
  (forall tok,
      fst (generate_auth_token user_id C K expires_in (Some t) w) = Ok tok ->
      wall_clock w2 < t ->
      decode_auth_token tok K w2 = (Ok C, w2)).
Proof.
  intros Hj Ht.
  assert (Hx : forall n (v : World S),
             expiry_instant (wall_clock v) n (Some t) = t).
  { intros n v. unfold expiry_instant, py_not_optint.
    destruct (Z.eqb_spec t 0); [contradiction | reflexivity]. }
  rewrite !generate_auth_token_run, !Hx. cbn [fst].
  split; [reflexivity|]. split; [reflexivity|].
  intros tok Htok Hlt.
  apply (decode_generate_any_json B laws S user_id C K expires_in (Some t)
           w w w2 tok Hj).
  - rewrite generate_auth_token_run, Hx, Htok. reflexivity.
  - rewrite Hx. exact Hlt.
Qed.

Lemma nonzero_expires_at_overrides_witness :
  @generate_auth_token pyjwt_hs256 unit (PyStr "u1") example_claims
    "secret" 600 (Some (-5)) (example_world 1000)
  = (@jwt_encode pyjwt_hs256 (auth_payload (PyStr "u1") example_claims (-5))
       "secret", example_world 1000) /\
  fst (@generate_auth_token pyjwt_hs256 unit (PyStr "u1") example_claims
         "secret" 600 (Some (-5)) (example_world 1000))
  = fst (@generate_auth_token pyjwt_hs256 unit (PyStr "u1") example_claims
           "secret" 30 (Some (-5)) (example_world 77)) /\
  (forall tok,
      fst (@generate_auth_token pyjwt_hs256 unit (PyStr "u1") example_claims
             "secret" 600 (Some (-5)) (example_world 1000)) = Ok tok ->
      wall_clock (example_world (-6)) < -5 ->
      @decode_auth_token pyjwt_hs256 unit tok "secret" (example_world (-6))
      = (Ok example_claims, example_world (-6))).
Proof.
  apply (nonzero_expires_at_overrides pyjwt_hs256 pyjwt_hs256_laws unit
           (PyStr "u1") example_claims "secret" 600 30 (-5)
           (example_world 1000) (example_world 77) (example_world (-6))).
  - reflexivity.
  - discriminate.
Defined.



(** ** What a result tells about the token *)








(** ** Tokens the module did not issue *)

(** X11: [decode_auth_token] does not require an [exp].  A token signed
    with the key whose payload has the four fields under [lab_instance]
    and no [exp] decodes to them at every clock reading: it never
    expires.  (Stated for payloads without the other registered claims,
    which the model of the package leaves out.) *)
Theorem token_without_exp_never_expires (B : Backend)
  (laws : BackendLaws B) (S : Type) d K tok C (w : World S) :
  json_ok (PyDict d) = true ->
  only_exp_registered d = true ->
  dict_get "exp" d = None ->
  read_claims (PyDict d) = Ok C ->
  jwt_encode (PyDict d) K = Ok tok ->
  decode_auth_token tok K w = (Ok C, w).
Proof.
  intros Hok _ He Hr Htok.
  rewrite (decode_signed_payload B laws S d K tok w Htok Hok), He, Hr.
  reflexivity.
Qed.

Lemma token_without_exp_never_expires_witness :
  exists tok,
    @jwt_encode pyjwt_hs256
      (PyDict [("lab_instance",
                PyDict [("lab_id", PyInt 42); ("lab_instance_id", PyInt 7);
                        ("namespace_name", PyStr "ns-a");
                        ("allowed_vmi_names", PyList [PyStr "vm-1"])])])
      "secret" = Ok tok /\
    @decode_auth_token pyjwt_hs256 unit tok "secret"
      (example_world 99999999999)
    = (Ok (mkParams (PyInt 42) (PyInt 7) (PyStr "ns-a")
                    (PyList [PyStr "vm-1"])),
       example_world 99999999999).
Proof.
  eexists. split; [vm_compute; reflexivity|].
  apply (token_without_exp_never_expires pyjwt_hs256 pyjwt_hs256_laws unit
           [("lab_instance",
             PyDict [("lab_id", PyInt 42); ("lab_instance_id", PyInt 7);
                     ("namespace_name", PyStr "ns-a");
                     ("allowed_vmi_names", PyList [PyStr "vm-1"])])]
           "secret").
  - reflexivity.
  - reflexivity.
  - reflexivity.
  - reflexivity.
  - vm_compute. reflexivity.
Defined.

Lemma read_claims_agree d1 d2 :
  (forall k, In k lab_instance_fields ->
             lab_instance_item d1 k = lab_instance_item d2 k) ->
  read_claims d1 = read_claims d2.
Proof.
  intros H. unfold read_claims.
  rewrite (H "lab_id"), (H "lab_instance_id"), (H "namespace_name"),
    (H "allowed_vmi_names"); [reflexivity | | | |];
    unfold lab_instance_fields; simpl; auto.
Qed.

(** X12: [decode_auth_token] reads [exp] and the four fields under
    [lab_instance], nothing else.  Two payloads signed with the key that
    agree on those decode alike at every clock reading, whatever other
    keys ([id] among them) either one carries.  (Stated for payloads
    without the other registered claims, which the model of the package
    leaves out.) *)
Theorem decode_reads_exp_and_four_fields (B : Backend)
  (laws : BackendLaws B) (S : Type) d1 d2 K tok1 tok2 (w : World S) :
  json_ok (PyDict d1) = true ->
  json_ok (PyDict d2) = true ->
  only_exp_registered d1 = true ->
  only_exp_registered d2 = true ->
  dict_get "exp" d1 = dict_get "exp" d2 ->
  (forall k, In k lab_instance_fields ->
             lab_instance_item (PyDict d1) k
             = lab_instance_item (PyDict d2) k) ->
  jwt_encode (PyDict d1) K = Ok tok1 ->
  jwt_encode (PyDict d2) K = Ok tok2 ->
  decode_auth_token tok1 K w = decode_auth_token tok2 K w.
Proof.
  intros Hok1 Hok2 _ _ He Hf Ht1 Ht2.
  rewrite (decode_signed_payload B laws S d1 K tok1 w Ht1 Hok1).
  rewrite (decode_signed_payload B laws S d2 K tok2 w Ht2 Hok2).
  rewrite He, (read_claims_agree _ _ Hf). reflexivity.
Qed.

Lemma decode_reads_exp_and_four_fields_witness :
  exists tok1 tok2,
    @jwt_encode pyjwt_hs256
      (auth_payload (PyStr "u1") example_claims 1600) "secret" = Ok tok1 /\
    @jwt_encode pyjwt_hs256
      (PyDict [("role", PyStr "admin"); ("exp", PyInt 1600);
               ("lab_instance",
                PyDict [("allowed_vmi_names",
                         PyList [PyStr "vm-1"; PyStr "vm-2"]);
                        ("extra", PyNone);
                        ("namespace_name", PyStr "ns-a");
                        ("lab_instance_id", PyInt 7);
                        ("lab_id", PyInt 42)])])
      "secret" = Ok tok2 /\
    @decode_auth_token pyjwt_hs256 unit tok1 "secret" (example_world 1000)
    = @decode_auth_token pyjwt_hs256 unit tok2 "secret" (example_world 1000).
Proof.
  eexists. eexists.
  split; [vm_compute; reflexivity|].
  split; [vm_compute; reflexivity|].
  apply (decode_reads_exp_and_four_fields pyjwt_hs256 pyjwt_hs256_laws unit
           [("id", PyStr "u1"); ("exp", PyInt 1600);
            ("lab_instance",
             PyDict [("lab_id", PyInt 42); ("lab_instance_id", PyInt 7);
                     ("namespace_name", PyStr "ns-a");
                     ("allowed_vmi_names",
                      PyList [PyStr "vm-1"; PyStr "vm-2"])])]
           [("role", PyStr "admin"); ("exp", PyInt 1600);
            ("lab_instance",
             PyDict [("allowed_vmi_names",
                      PyList [PyStr "vm-1"; PyStr "vm-2"]);
                     ("extra", PyNone);
                     ("namespace_name", PyStr "ns-a");
                     ("lab_instance_id", PyInt 7);
                     ("lab_id", PyInt 42)])]
           "secret").
  - reflexivity.
  - reflexivity.
  - reflexivity.
  - reflexivity.
  - reflexivity.
  - intros k Hk. simpl in Hk.
    destruct Hk as [<-|[<-|[<-|[<-|[]]]]]; reflexivity.
  - vm_compute. reflexivity.
  - vm_compute. reflexivity.
Defined.

(** ** The token is signed, not encrypted *)




(** ** Strings that are no tokens *)

Lemma rsplit_last_dot_count s a b :
  rsplit_last_dot s = Some (a, b) -> (count_dots a < count_dots s)%nat.
Proof.
  revert a. induction s as [|c s IH]; intros a; simpl; [discriminate|].
  destruct (rsplit_last_dot s) as [[a' b']|].
  - intros [= <- <-]. specialize (IH a' eq_refl). simpl.
    destruct (Ascii.eqb c "."); lia.
  - destruct (Ascii.eqb c "."); [|discriminate].
    intros [= <- _]. simpl. lia.
Qed.

Lemma split_first_dot_no_dots s :
  count_dots s = O -> split_first_dot s = None.
Proof.
  induction s as [|c s IH]; simpl; [reflexivity|].
  destruct (Ascii.eqb c "."); [discriminate|].
  intros H. rewrite (IH H). reflexivity.
Qed.

(** X14: a token has two dots at least.  On the empty string, and on any
    string with fewer than two dots, [decode_auth_token] and
    [verify_auth_token] raise [DecodeError], for every key, at every
    clock reading. *)
Theorem fewer_than_two_dots_is_malformed (B : Backend) (S : Type) tok
  vmi_name K (w : World S) :
  (count_dots tok < 2)%nat ->
  decode_auth_token tok K w = (Raise DecodeError, w) /\
  verify_auth_token tok vmi_name K w = (Raise DecodeError, w).
Proof.
  intros Hc.
  assert (Hl : jws_load tok = None).
  { unfold jws_load.
    destruct (rsplit_last_dot tok) as [[a b]|] eqn:E; [|reflexivity].
    apply rsplit_last_dot_count in E.
    rewrite split_first_dot_no_dots by lia. reflexivity. }
  assert (Hd : decode_auth_token tok K w = (Raise DecodeError, w)).
  { apply decode_auth_token_raise. unfold jwt_decode. rewrite Hl.
    reflexivity. }
  split; [exact Hd|].
  unfold verify_auth_token. apply bind_raise, Hd.
Qed.

Lemma fewer_than_two_dots_is_malformed_witness :
  @decode_auth_token pyjwt_hs256 unit EmptyString "secret"
    (example_world 1000)
  = (Raise DecodeError, example_world 1000) /\
  @verify_auth_token pyjwt_hs256 unit EmptyString "vm-1" "secret"
    (example_world 1000)
  = (Raise DecodeError, example_world 1000).
Proof.
  apply (fewer_than_two_dots_is_malformed pyjwt_hs256 unit EmptyString
           "vm-1" "secret" (example_world 1000)).
  simpl. lia.
Defined.

(** ** Long keys *)



